(** * tiny_dnn/util/serialization_helper.h

    A shallow embedding of the layer registry of tiny-dnn: the class
    [serialization_helper<InputArchive, OutputArchive>], the glue of namespace
    [detail] that fills it ([load_layer_impl], [save_layer_impl],
    [automatic_layer_generator_register]) and the free functions
    [serialize_prolog], [start_loading_layer] and [finish_loading_layer].

    The three [std::map] members are finite maps; the singleton
    [get_instance()] is a value passed to every member function and handed
    back by the ones that are not [const]; exceptions, and the one place where
    the header leaves the defined behaviour of C++, are results. *)

From stdpp Require Import gmap strings list.

Open Scope string_scope.
Open Scope list_scope.

(** ** Results of running C++ code *)

(** [std::type_index]: an opaque token, compared and ordered. *)
Abbreviation type_index := positive (only parsing).

(** What can be thrown: [nn_error] (tiny_dnn/util/nn_error.h) by this header,
    the two exceptions of the standard library that its calls can raise, and
    whatever the code of a concrete layer or of an archive throws. *)
Inductive exn : Type :=
| nn_error (what : string)
| bad_function_call
| out_of_range
| foreign (what : string).

(** The result of running a piece of code: it returned, it threw, or its
    behaviour is undefined (here: a null pointer was dereferenced). *)
Inductive outcome (A : Type) : Type :=
| Returned (a : A)
| Thrown (e : exn)
| Undefined.
Arguments Returned {A} a.
Arguments Thrown {A} e.
Arguments Undefined {A}.

(** The result of a member function of the registry, with the place it left
    from: its own [throw] statement ([LookupError]), or its last statement
    ([Resolved]), whose result is what the registered closure, or the map
    access, did. C++ merges the two into one channel; [flatten] does so. *)
Inductive resolution (A : Type) : Type :=
| LookupError (e : exn)
| Resolved (a : A).
Arguments LookupError {A} e.
Arguments Resolved {A} a.

Definition flatten {A : Type} (r : resolution (outcome A)) : outcome A :=
  match r with
  | LookupError e => Thrown e
  | Resolved o => o
  end.

(** Sequencing: what follows a statement runs only if the statement returned. *)
#[export] Instance outcome_ret : MRet outcome := λ A a, Returned a.
#[export] Instance outcome_bind : MBind outcome := λ A B k o,
  match o with
  | Returned a => k a
  | Thrown e => Thrown e
  | Undefined => Undefined
  end.

(** ** [std::map] and [std::function] *)

Section std_map.
Context `{Countable K} {V : Type}.

(** [m.find(k)]: [None] stands for [m.end()]. *)
Definition map_find (m : gmap K V) (k : K) : option V := m !! k.

(** [m.at(k)] on a const map: throws [std::out_of_range] for a missing key. *)
Definition map_at (m : gmap K V) (k : K) : outcome V :=
  match m !! k with
  | Some v => Returned v
  | None => Thrown out_of_range
  end.

(** [m[k]]: a missing key is first inserted with a value-initialised mapped
    value [dflt]; the reference returned is to the entry, and the map that
    results is returned with it. *)
Definition map_subscript (dflt : V) (m : gmap K V) (k : K) : V * gmap K V :=
  match m !! k with
  | Some v => (v, m)
  | None => (dflt, <[k := dflt]> m)
  end.

(** [m[k] = v]. *)
Definition map_assign (dflt : V) (m : gmap K V) (k : K) (v : V) : gmap K V :=
  <[k := v]> (map_subscript dflt m k).2.

End std_map.

(** [std::function<F>]: empty ([None], the value-initialised one) or holding a
    target. *)
Abbreviation std_function F := (option F) (only parsing).

(** ** Layers, pointers and the heap *)

Inductive value : Type :=
| VString (s : string)
| VNumber (n : Z).

(** A layer object: its dynamic type and the values of its own members. The
    header only declares [class layer;]. *)
Record object : Type := {
  dynamic_type : type_index;
  members : list (string * value) }.

Abbreviation loc := positive (only parsing).

(** What an address of the free store holds: storage of the size and alignment
    of [T] with no object in it ([new ST()]), or a constructed object. *)
Inductive block : Type :=
| Raw (T : type_index)
| Live (o : object).

(** The calls a test double of [T] would count. *)
Inductive event : Type :=
| EvNew (p : loc) (T : type_index)
| EvConstructed (p : loc)
| EvValid (v : loc)
| EvDestructor (p : loc)
| EvDelete (p : loc).

(** The free store: the [bool]s made by [std::make_shared<bool>], the blocks,
    and the log of what ran. *)
Record memory : Type := {
  flags : gmap loc bool;
  blocks : gmap loc block;
  events : list event }.

Definition empty_memory : memory := {| flags := ∅; blocks := ∅; events := [] |}.

Definition log (e : event) (m : memory) : memory :=
  {| flags := flags m; blocks := blocks m; events := events m ++ [e] |}.

(** [std::make_shared<bool>(b)] *)
Definition make_shared_bool (b : bool) (m : memory) : loc * memory :=
  let v := fresh (dom (flags m)) in
  (v, {| flags := <[v := b]> (flags m); blocks := blocks m; events := events m |}).

(** [*valid], and [*valid = b] *)
Definition read_flag (v : loc) (m : memory) : bool := default false (flags m !! v).

Definition write_flag (v : loc) (b : bool) (m : memory) : memory :=
  log (EvValid v) {| flags := <[v := b]> (flags m); blocks := blocks m; events := events m |}.

(** [new ST()] *)
Definition new_storage (T : type_index) (m : memory) : loc * memory :=
  let p := fresh (dom (blocks m)) in
  (p, log (EvNew p T) {| flags := flags m; blocks := <[p := Raw T]> (blocks m); events := events m |}).

(** [T]'s constructor, run on the storage at [p] by cereal's [construct]. *)
Definition construct_at (p : loc) (T : type_index) (ms : list (string * value)) (m : memory) : memory :=
  log (EvConstructed p)
    {| flags := flags m;
       blocks := <[p := Live {| dynamic_type := T; members := ms |}]> (blocks m);
       events := events m |}.

(** [t->~T()]: storage is left behind. *)
Definition destructor (T : type_index) (p : loc) (m : memory) : memory :=
  log (EvDestructor p) {| flags := flags m; blocks := <[p := Raw T]> (blocks m); events := events m |}.

(** [delete reinterpret_cast<ST*>(t)] *)
Definition delete_storage (p : loc) (m : memory) : memory :=
  log (EvDelete p) {| flags := flags m; blocks := delete p (blocks m); events := events m |}.

(** [std::shared_ptr] with a deleter. The use count is not kept: [release] is
    what the last owner does when it lets go. *)
Record shared_ptr : Type := {
  get : loc;
  deleter : loc -> memory -> memory }.

Definition release (sp : shared_ptr) (m : memory) : memory := deleter sp (get sp) m.

(** ** The collaborators: cereal and the concrete layer types *)

(** What the header asks of an output archive: [oa(cereal::make_nvp(n, x))]
    for a string [x] ([nvp]) and for a layer [x] ([nvp_object], given the
    layer's own [serialize] as [body], which the archive runs inside whatever
    framing its format has). *)
Class cereal_output (OutputArchive : Type) : Type := {
  nvp : string -> value -> OutputArchive -> OutputArchive;
  nvp_object : string -> (OutputArchive -> outcome OutputArchive) ->
               OutputArchive -> outcome OutputArchive }.

(** The class hierarchy below [layer]: [derived_from D T] when [D] is a proper
    descendant of [T]. *)
Class hierarchy : Type := {
  derived_from : type_index -> type_index -> bool }.

(** What [T::load_and_construct] did on the storage it was given: it returned
    after constructing a [T] with these members, or it threw, before or after
    the constructor ran ([built]). *)
Inductive construction : Type :=
| Completed (ms : list (string * value))
| Failed (e : exn) (built : option (list (string * value))).

(** The code of the concrete layer types for one pair of archives.
    [serialize T o names oa] is [T::serialize] on the object [o]; it can reach
    the registry's [type_names_] (through [serialize_prolog]), hence [names]. *)
Class layer_types (InputArchive OutputArchive : Type) : Type := {
  load_and_construct : type_index -> InputArchive -> construction * InputArchive;
  serialize : type_index -> object -> gmap type_index string ->
              OutputArchive -> outcome OutputArchive }.

(** ** [class serialization_helper] *)

(** The line feed of the message. *)
Definition LF : string :=
  String (Ascii.Ascii false true false true false false false false) EmptyString.

Definition generator_not_found (layer_name : string) : exn :=
  nn_error ("Failed to generate layer. Generator for " +:+ layer_name +:+ " is not found."
            +:+ LF +:+
            "Please use CNN_REGISTER_LAYER_DESERIALIZER macro to register appropriate generator").

(** [serialization_name] is a const member that reads [type_names_] alone. It
    is given that member: the closures are stored inside the registry, so they
    cannot take the whole of it as an argument, and [type_names_] is what they
    read of [get_instance()] when they are called. *)
Definition serialization_name (names : gmap type_index string) (index : type_index)
  : resolution (outcome string) :=
  match map_find names index with
  | None => LookupError (nn_error "Typename is not registered")
  | Some _ => Resolved (map_at names index)
  end.

(** The targets of the two maps of closures. A loader reads the archive and
    works on the free store; a saver writes the archive, and sees the
    registry's [type_names_] as they are when it is called. A [const layer*]
    is only read through: it is the object pointed to, or [None] for null. *)
Abbreviation loader InputArchive :=
  (InputArchive -> memory -> outcome shared_ptr * InputArchive * memory)%type (only parsing).
Abbreviation saver OutputArchive :=
  (gmap type_index string -> OutputArchive -> option object -> outcome OutputArchive)%type
  (only parsing).

Section serialization_helper.
Context {InputArchive OutputArchive : Type}.

Record serialization_helper : Type := {
  loaders_ : gmap string (std_function (loader InputArchive));
  savers_ : gmap string (std_function (saver OutputArchive));
  type_names_ : gmap type_index string }.

(** The private constructor: three empty maps. *)
Definition new_helper : serialization_helper :=
  {| loaders_ := ∅; savers_ := ∅; type_names_ := ∅ |}.

(** The closures take the archive as [void*] and cast it back: the identity
    on the reference. *)
Definition register_loader (h : serialization_helper) (name : string) (func : loader InputArchive)
  : serialization_helper :=
  {| loaders_ := map_assign None (loaders_ h) name (Some (fun ar => func ar));
     savers_ := savers_ h;
     type_names_ := type_names_ h |}.

Definition register_type (h : serialization_helper) (T : type_index) (name : string)
  : serialization_helper :=
  {| loaders_ := loaders_ h;
     savers_ := savers_ h;
     type_names_ := map_assign EmptyString (type_names_ h) T name |}.

Definition call_loader (f : std_function (loader InputArchive)) (ar : InputArchive) (m : memory)
  : outcome shared_ptr * InputArchive * memory :=
  match f with
  | Some target => target ar m
  | None => (Thrown bad_function_call, ar, m)
  end.

Definition call_saver (f : std_function (saver OutputArchive)) (names : gmap type_index string)
    (ar : OutputArchive) (l : option object) : outcome OutputArchive :=
  match f with
  | Some target => target names ar l
  | None => Thrown bad_function_call
  end.

(** [load] and [save]. [ar] is a reference: the archive comes back in the
    result of the closure; [m] is the free store the loader allocates in. *)
Definition load (h : serialization_helper) (layer_name : string) (ar : InputArchive) (m : memory)
  : resolution (outcome shared_ptr * InputArchive * memory) * serialization_helper :=
  match map_find (loaders_ h) layer_name with
  | None => (LookupError (generator_not_found layer_name), h)
  | Some _ =>
      let '(f, loaders') := map_subscript None (loaders_ h) layer_name in
      let h' := {| loaders_ := loaders'; savers_ := savers_ h; type_names_ := type_names_ h |} in
      (Resolved (call_loader f ar m), h')
  end.

Definition save (h : serialization_helper) (layer_name : string) (ar : OutputArchive)
    (l : option object) : resolution (outcome OutputArchive) * serialization_helper :=
  match map_find (savers_ h) layer_name with
  | None => (LookupError (generator_not_found layer_name), h)
  | Some _ =>
      let '(f, savers') := map_subscript None (savers_ h) layer_name in
      let h' := {| loaders_ := loaders_ h; savers_ := savers'; type_names_ := type_names_ h |} in
      (Resolved (call_saver f (type_names_ h') ar l), h')
  end.

Context `{!hierarchy}.

(** [dynamic_cast<const T*>(l)]: null for a null [l] and for an object that is
    neither a [T] nor of a class derived from [T]. *)
Definition dynamic_cast (T : type_index) (l : option object) : option object :=
  match l with
  | Some o =>
      if bool_decide (dynamic_type o = T) || derived_from (dynamic_type o) T
      then Some o else None
  | None => None
  end.

Definition register_saver (h : serialization_helper) (T : type_index) (name : string)
    (func : saver OutputArchive) : serialization_helper :=
  {| loaders_ := loaders_ h;
     savers_ := map_assign None (savers_ h) name
                  (Some (fun names ar l => func names ar (dynamic_cast T l)));
     type_names_ := type_names_ h |}.

(** ** [namespace detail] *)

Context `{!cereal_output OutputArchive, !layer_types InputArchive OutputArchive}.

(** The deleter of [bn]: the closure captures [valid], a shared [bool], and
    reads it when it runs. *)
Definition load_layer_deleter (T : type_index) (valid : loc) (t : loc) (m : memory) : memory :=
  let m := if read_flag valid m then destructor T t m else m in
  delete_storage t m.

(** [wrapper.CEREAL_SERIALIZE_FUNCTION_NAME(ia)] is [T::load_and_construct] on
    [bn.get()]. When it throws, [bn] goes out of scope while the stack
    unwinds, and its deleter runs. *)
Definition load_layer_impl (T : type_index) (ia : InputArchive) (m : memory)
  : outcome shared_ptr * InputArchive * memory :=
  let '(valid, m) := make_shared_bool false m in
  let '(st, m) := new_storage T m in
  let bn := {| get := st; deleter := load_layer_deleter T valid |} in
  match load_and_construct T ia with
  | (Failed e built, ia) =>
      let m := match built with Some ms => construct_at st T ms m | None => m end in
      (Thrown e, ia, release bn m)
  | (Completed ms, ia) =>
      let m := construct_at st T ms m in
      let m := write_flag valid true m in
      (Returned bn, ia, m)
  end.

(** [*layer] on a null [layer] is undefined whichever argument of [make_nvp]
    is evaluated first. *)
Definition save_layer_impl (T : type_index) (names : gmap type_index string)
    (oa : OutputArchive) (layer : option object) : outcome OutputArchive :=
  match layer with
  | None => Undefined
  | Some o =>
      n ← flatten (serialization_name names T);
      nvp_object n (serialize T o names) oa
  end.

(** The constructor of [automatic_layer_generator_register<InputArchive, OutputArchive, T>]. *)
Definition automatic_layer_generator_register (h : serialization_helper) (T : type_index)
    (s : string) : serialization_helper :=
  let h := register_loader h s (load_layer_impl T) in
  let h := register_type h T s in
  register_saver h T s (save_layer_impl T).

(** ** The free functions *)

Definition serialize_prolog (names : gmap type_index string) (oa : OutputArchive)
    (T : type_index) : outcome OutputArchive :=
  n ← flatten (serialization_name names T);
  mret (nvp "type" (VString n) oa).

(** ** Runs of the glue, and the invariant of the registry *)

(** The registry once the static objects [s_register_...] of a program have
    been constructed, in the order of [runs]. *)
Definition registered (runs : list (type_index * string)) : serialization_helper :=
  foldl (λ h '(T, s), automatic_layer_generator_register h T s) new_helper runs.

(** Every name that has a loader has a saver and is the name of some type. *)
Definition names_covered (h : serialization_helper) : Prop :=
  ∀ name : string,
    is_Some (loaders_ h !! name) →
    is_Some (savers_ h !! name) ∧ ∃ T : type_index, type_names_ h !! T = Some name.

(** No type was registered under two names. *)
Definition one_name_per_type (runs : list (type_index * string)) : Prop :=
  ∀ (T : type_index) (s s' : string), (T, s) ∈ runs → (T, s') ∈ runs → s = s'.

End serialization_helper.
Arguments serialization_helper : clear implicits.

(** ** The archives of cereal

    cereal is not among the sources. The two pairs of archives the header
    registers for (JSON and binary) are modelled from the spec's account of
    the archive collaborator (sections 4.3 and 6): named fields, and, for the
    tree format, entering and leaving the node of an object. *)

#[warnings="-register-all"]
Inductive json : Type :=
| JString (s : string)
| JNumber (n : Z)
| JObject (ms : list (string * json)).

Definition json_of_value (v : value) : json :=
  match v with
  | VString s => JString s
  | VNumber n => JNumber n
  end.

(** Modelled from the spec: [cereal::JSONOutputArchive], the tree-structured
    output archive: the members written so far to the node that is open, and
    around it the nodes that enclose it, each with the name the inner node
    will get and the members it had when the inner one was opened. *)
Record JSONOutputArchive : Type := {
  written : list (string * json);
  enclosing : list (string * list (string * json)) }.

Definition json_nvp (n : string) (v : value) (oa : JSONOutputArchive) : JSONOutputArchive :=
  {| written := written oa ++ [(n, json_of_value v)]; enclosing := enclosing oa |}.

Definition json_start_node (n : string) (oa : JSONOutputArchive) : JSONOutputArchive :=
  {| written := []; enclosing := (n, written oa) :: enclosing oa |}.

Definition json_finish_node (oa : JSONOutputArchive) : outcome JSONOutputArchive :=
  match enclosing oa with
  | (n, ms) :: rest => Returned {| written := ms ++ [(n, JObject (written oa))]; enclosing := rest |}
  | [] => Undefined
  end.

#[export] Instance json_output : cereal_output JSONOutputArchive := {|
  nvp := json_nvp;
  nvp_object n body oa := oa' ← body (json_start_node n oa); json_finish_node oa' |}.

(** Modelled from the spec: [cereal::BinaryOutputArchive], the flat output
    archive: the values in the order written; names are dropped and objects
    are not framed. *)
Record BinaryOutputArchive : Type := { stream : list value }.

#[export] Instance binary_output : cereal_output BinaryOutputArchive := {|
  nvp n v oa := {| stream := stream oa ++ [v] |};
  nvp_object n body oa := body oa |}.

(** Modelled from the spec: [cereal::JSONInputArchive], the tree-structured
    input archive: its stack of iterators, the last one pushed first; an
    iterator is the members of its node from its position on. *)
Record JSONInputArchive : Type := { iterators : list (list (string * json)) }.

(** Modelled from the spec: [ia.startNode()], node entry: enters the value
    the innermost iterator is at. *)
Definition startNode (ia : JSONInputArchive) : outcome JSONInputArchive :=
  match iterators ia with
  | ((_, JObject ms) :: _) :: _ => Returned {| iterators := ms :: iterators ia |}
  | (_ :: _) :: _ => Thrown (foreign "rapidjson: the value is not an object")
  | [] :: _ => Thrown (foreign "cereal: null or empty iterator to object or array")
  | [] => Undefined
  end.

(** Modelled from the spec: [ia.finishNode()], node exit: pops the innermost
    iterator and steps the one below. *)
Definition finishNode (ia : JSONInputArchive) : outcome JSONInputArchive :=
  match iterators ia with
  | _ :: it :: rest => Returned {| iterators := tail it :: rest |}
  | _ => Undefined
  end.

(** Modelled from the spec: [cereal::BinaryInputArchive], the flat input
    archive: the values still to be read. *)
Record BinaryInputArchive : Type := { input : list value }.

(** ** [start_loading_layer] and [finish_loading_layer]

    Two function templates, one for every archive type [T], and two overloads
    for [cereal::JSONInputArchive], which overload resolution prefers for an
    argument of that type. *)
Class loading_layer (T : Type) : Type := {
  start_loading_layer : T -> outcome T;
  finish_loading_layer : T -> outcome T }.

#[export] Instance loading_layer_template (T : Type) : loading_layer T | 100 := {|
  start_loading_layer ar := Returned ar;
  finish_loading_layer ar := Returned ar |}.

#[export] Instance loading_layer_json : loading_layer JSONInputArchive | 0 := {|
  start_loading_layer ia := startNode ia;
  finish_loading_layer ia := finishNode ia |}.

(** ** Two layer types

    The concrete layer types are not among the sources. These are the [Conv]
    and [Dense] of the scenario of section 8 of the spec, a [Conv] with
    members [kernel] and [stride], used to run the registry. *)

Definition Conv : type_index := 1%positive.
Definition Dense : type_index := 2%positive.

Definition own_members (T : type_index) : list string :=
  if decide (T = Conv) then ["kernel"; "stride"]
  else if decide (T = Dense) then ["units"]
  else [].

Definition write_members {OutputArchive : Type} `{!cereal_output OutputArchive}
    (ms : list (string * value)) (oa : OutputArchive) : OutputArchive :=
  foldl (λ oa '(n, v), nvp n v oa) oa ms.

Definition value_of_json (j : json) : option value :=
  match j with
  | JString s => Some (VString s)
  | JNumber n => Some (VNumber n)
  | JObject _ => None
  end.

Definition read_member (ia : JSONInputArchive) (n : string) : option (string * value) :=
  it ← head (iterators ia);
  j ← (list_to_map it : gmap string json) !! n;
  v ← value_of_json j;
  Some (n, v).

(** Modelled from the spec: [Conv] and [Dense] derive from [layer] alone. *)
Definition sample_hierarchy : hierarchy := {| derived_from _ _ := false |}.

(** Modelled from the spec: the code of [Conv] and [Dense]. [serialize] emits
    the type tag and then each member (the prolog is called once per object,
    before its own fields); [load_and_construct] reads the members from the
    node and throws when one is missing. *)

Definition sample_layers : layer_types JSONInputArchive JSONOutputArchive := {|
  load_and_construct T ia :=
    match mapM (read_member ia) (own_members T) with
    | Some ms => (Completed ms, ia)
    | None => (Failed (foreign "cereal: JSON parsing failed - provided NVP not found") None, ia)
    end;
  serialize T o names oa :=
    oa ← serialize_prolog names oa T;
    mret (write_members (members o) oa) |}.

(** Modelled from the spec: the code of [Conv] and [Dense] for the binary
    archives, where the members are read and written by position. *)
Definition sample_binary_layers : layer_types BinaryInputArchive BinaryOutputArchive := {|
  load_and_construct T ia :=
    let n := length (own_members T) in
    if decide (n ≤ length (input ia))%nat
    then (Completed (zip (own_members T) (take n (input ia))), {| input := drop n (input ia) |})
    else (Failed (foreign "cereal: failed to read from input stream") None, ia);
  serialize T o names oa :=
    oa ← serialize_prolog names oa T;
    mret (write_members (members o) oa) |}.

Section sample.
#[local] Existing Instance sample_hierarchy.
#[local] Existing Instance sample_layers.

(** The registry after
    [CNN_REGISTER_LAYER_SERIALIZER(Conv, conv)] and
    [CNN_REGISTER_LAYER_SERIALIZER(Dense, dense)], for the JSON archives. *)
Definition sample_helper : serialization_helper JSONInputArchive JSONOutputArchive :=
  automatic_layer_generator_register
    (automatic_layer_generator_register new_helper Conv "conv") Dense "dense".

(** The registry of the JSON archives before any registration. *)
Definition new_json_helper : serialization_helper JSONInputArchive JSONOutputArchive :=
  new_helper.

Definition a_conv : object :=
  {| dynamic_type := Conv; members := [("kernel", VNumber 3); ("stride", VNumber 1)] |}.

Definition a_dense : object :=
  {| dynamic_type := Dense; members := [("units", VNumber 10)] |}.

Definition empty_json_output : JSONOutputArchive := {| written := []; enclosing := [] |}.

(** An input archive positioned inside a node of a [Conv], and one inside a
    node that lacks [stride]. *)
Definition conv_node : JSONInputArchive :=
  {| iterators := [[("type", JString "conv"); ("kernel", JNumber 3); ("stride", JNumber 1)]] |}.

Definition broken_conv_node : JSONInputArchive :=
  {| iterators := [[("type", JString "conv"); ("kernel", JNumber 3)]] |}.

(** A document with one layer, before its node is entered. *)
Definition conv_document : JSONInputArchive :=
  {| iterators := [[("value0", JObject [("type", JString "conv"); ("kernel", JNumber 3);
                                         ("stride", JNumber 1)])]] |}.

End sample.

(** ** Runs of the glue on a registry that already holds entries *)

Section registered_from.
Context {InputArchive OutputArchive : Type}.
Context `{!hierarchy, !cereal_output OutputArchive, !layer_types InputArchive OutputArchive}.

(** The static objects of [runs] constructed, in order, on the registry [h];
    [registered runs] is [registered_from new_helper runs]. *)
Definition registered_from (h : serialization_helper InputArchive OutputArchive)
    (runs : list (type_index * string)) : serialization_helper InputArchive OutputArchive :=
  foldl (λ h '(T, s), automatic_layer_generator_register h T s) h runs.

End registered_from.

(** ** The registration macros *)

(** [get_instance()] returns a function-local static of each instantiation of
    the class template: the macros fill one registry for the JSON archives and
    one for the binary archives. *)
Record instances : Type := {
  json_instance : serialization_helper JSONInputArchive JSONOutputArchive;
  binary_instance : serialization_helper BinaryInputArchive BinaryOutputArchive }.

(** The activation classes that
    [CNN_REGISTER_LAYER_SERIALIZER_WITH_ACTIVATIONS] names, as the tokens the
    preprocessor sees, in the order of the macro. *)
Definition activations : list string :=
  ["tan_h"; "softmax"; "identity"; "sigmoid"; "relu"; "leaky_relu"; "elu"; "tan_hp1m2"].

Section macros.
Context `{!hierarchy}.
Context `{!layer_types JSONInputArchive JSONOutputArchive}.
Context `{!layer_types BinaryInputArchive BinaryOutputArchive}.

(** Two static objects, whose constructors run when the program starts. The
    third parameter, [unique_name], only names the two objects. *)
Definition CNN_REGISTER_LAYER_SERIALIZER_BODY (g : instances) (layer_type : type_index)
    (layer_name : string) : instances :=
  {| json_instance :=
       automatic_layer_generator_register (json_instance g) layer_type layer_name;
     binary_instance :=
       automatic_layer_generator_register (binary_instance g) layer_type layer_name |}.

(** [layer_type] is a class template here, applied to the activation class
    that the token [activation_type] names; [#layer_name "<" #activation_type ">"]
    is one string literal. *)
Definition CNN_REGISTER_LAYER_SERIALIZER_WITH_ACTIVATION (g : instances)
    (layer_type : string -> type_index) (activation_type : string) (layer_name : string)
  : instances :=
  CNN_REGISTER_LAYER_SERIALIZER_BODY g (layer_type activation_type)
    (layer_name +:+ "<" +:+ activation_type +:+ ">").

Definition CNN_REGISTER_LAYER_SERIALIZER (g : instances) (layer_type : type_index)
    (layer_name : string) : instances :=
  CNN_REGISTER_LAYER_SERIALIZER_BODY g layer_type layer_name.

Definition CNN_REGISTER_LAYER_SERIALIZER_WITH_ACTIVATIONS (g : instances)
    (layer_type : string -> type_index) (layer_name : string) : instances :=
  let g := CNN_REGISTER_LAYER_SERIALIZER_WITH_ACTIVATION g layer_type "tan_h" layer_name in
  let g := CNN_REGISTER_LAYER_SERIALIZER_WITH_ACTIVATION g layer_type "softmax" layer_name in
  let g := CNN_REGISTER_LAYER_SERIALIZER_WITH_ACTIVATION g layer_type "identity" layer_name in
  let g := CNN_REGISTER_LAYER_SERIALIZER_WITH_ACTIVATION g layer_type "sigmoid" layer_name in
  let g := CNN_REGISTER_LAYER_SERIALIZER_WITH_ACTIVATION g layer_type "relu" layer_name in
  let g := CNN_REGISTER_LAYER_SERIALIZER_WITH_ACTIVATION g layer_type "leaky_relu" layer_name in
  let g := CNN_REGISTER_LAYER_SERIALIZER_WITH_ACTIVATION g layer_type "elu" layer_name in
  CNN_REGISTER_LAYER_SERIALIZER_WITH_ACTIVATION g layer_type "tan_hp1m2" layer_name.

End macros.

(** * Properties *)

Section std_map_facts.
Context `{Countable K} {V : Type}.
Implicit Types (m : gmap K V) (k : K) (v dflt : V).

Lemma map_subscript_found dflt m k v :
  m !! k = Some v → map_subscript dflt m k = (v, m).
Proof. unfold map_subscript. by intros ->. Qed.

Lemma map_subscript_missing dflt m k :
  m !! k = None → map_subscript dflt m k = (dflt, <[k := dflt]> m).
Proof. unfold map_subscript. by intros ->. Qed.

Lemma map_assign_insert dflt m k v : map_assign dflt m k v = <[k := v]> m.
Proof.
  unfold map_assign, map_subscript.
  destruct (m !! k); simpl; [done | apply insert_insert_eq].
Qed.

Lemma map_assign_lookup dflt m k v : map_assign dflt m k v !! k = Some v.
Proof. rewrite map_assign_insert. apply lookup_insert_eq. Qed.

End std_map_facts.

Section lookups.
Context {InputArchive OutputArchive : Type}.
Implicit Types (h : serialization_helper InputArchive OutputArchive).
Implicit Types (names : gmap type_index string).

Lemma helper_eta h :
  {| loaders_ := loaders_ h; savers_ := savers_ h; type_names_ := type_names_ h |} = h.
Proof. by destruct h. Qed.

(** [load] and [save] by cases on the entry of the name. *)
Lemma load_cases h layer_name (ar : InputArchive) m :
  load h layer_name ar m =
  match loaders_ h !! layer_name with
  | None => (LookupError (generator_not_found layer_name), h)
  | Some f => (Resolved (call_loader f ar m), h)
  end.
Proof.
  unfold load, map_find.
  destruct (loaders_ h !! layer_name) as [f|] eqn:E; [|done].
  rewrite (map_subscript_found _ _ _ _ E). by rewrite helper_eta.
Qed.

Lemma save_cases h layer_name (ar : OutputArchive) l :
  save h layer_name ar l =
  match savers_ h !! layer_name with
  | None => (LookupError (generator_not_found layer_name), h)
  | Some f => (Resolved (call_saver f (type_names_ h) ar l), h)
  end.
Proof.
  unfold save, map_find.
  destruct (savers_ h !! layer_name) as [f|] eqn:E; [|done].
  rewrite (map_subscript_found _ _ _ _ E). by rewrite helper_eta.
Qed.

Lemma serialization_name_cases names index :
  serialization_name names index =
  match names !! index with
  | None => LookupError (nn_error "Typename is not registered")
  | Some n => Resolved (Returned n)
  end.
Proof.
  unfold serialization_name, map_find, map_at.
  by destruct (names !! index).
Qed.

(** C2. [load] leaves through its [throw], with the message that names the
    layer, exactly when [layer_name] has no entry in [loaders_]; when it has
    one, what [load] returns is what the call of the closure stored there
    does on the archive, and after [register_loader] that closure is the
    function that was registered. *)
Theorem load_raises_iff_absent h layer_name (ar : InputArchive) m :
  ((∃ e, (load h layer_name ar m).1 = LookupError e) ↔ loaders_ h !! layer_name = None) ∧
  (loaders_ h !! layer_name = None →
     (load h layer_name ar m).1 = LookupError (generator_not_found layer_name)) ∧
  (∀ f, loaders_ h !! layer_name = Some f →
     (load h layer_name ar m).1 = Resolved (call_loader f ar m)) ∧
  (∀ func, (load (register_loader h layer_name func) layer_name ar m).1 = Resolved (func ar m)).
Proof.
  rewrite load_cases. repeat split.
  - intros [e He]. by destruct (loaders_ h !! layer_name).
  - intros ->. by eexists.
  - by intros ->.
  - by intros f ->.
  - intros func. rewrite load_cases. simpl. by rewrite map_assign_lookup.
Qed.

(** C6. [save] leaves through its [throw] exactly when [layer_name] has no
    entry in [savers_]; when it has one, the closure stored there is called
    with the archive and the pointer, and after [register_saver<T>] that
    closure calls the registered function on the pointer cast to [T]. *)
Theorem save_raises_iff_absent h layer_name (ar : OutputArchive) l :
  ((∃ e, (save h layer_name ar l).1 = LookupError e) ↔ savers_ h !! layer_name = None) ∧
  (savers_ h !! layer_name = None →
     (save h layer_name ar l).1 = LookupError (generator_not_found layer_name)) ∧
  (∀ f, savers_ h !! layer_name = Some f →
     (save h layer_name ar l).1 = Resolved (call_saver f (type_names_ h) ar l)) ∧
  (∀ `{!hierarchy} T func,
     (save (register_saver h T layer_name func) layer_name ar l).1 =
     Resolved (func (type_names_ h) ar (dynamic_cast T l))).
Proof.
  rewrite save_cases. repeat split.
  - intros [e He]. by destruct (savers_ h !! layer_name).
  - intros ->. by eexists.
  - by intros ->.
  - by intros f ->.
  - intros ? T func. rewrite save_cases. simpl. by rewrite map_assign_lookup.
Qed.

(** C7. [serialization_name] throws exactly when the key has no entry in
    [type_names_]; when it has one, the name stored there is returned, which
    after [register_type<T>(name)] is [name]. *)
Theorem serialization_name_raises_iff_absent names index :
  ((∃ e, serialization_name names index = LookupError e) ↔ names !! index = None) ∧
  (names !! index = None →
     serialization_name names index = LookupError (nn_error "Typename is not registered")) ∧
  (∀ n, names !! index = Some n → serialization_name names index = Resolved (Returned n)) ∧
  (∀ h name,
     serialization_name (type_names_ (register_type h index name)) index =
     Resolved (Returned name)).
Proof.
  rewrite serialization_name_cases. repeat split.
  - intros [e He]. by destruct (names !! index).
  - intros ->. by eexists.
  - by intros ->.
  - by intros n ->.
  - intros h name. rewrite serialization_name_cases. simpl. by rewrite map_assign_lookup.
Qed.

(** C10. [load] and [save] hand back the registry they were given, whether
    they throw or call a closure: the [operator[]] they use is reached only
    for a key that [find] has found, so it inserts nothing.
    [serialization_name] is a const member, a function of [type_names_] with
    no registry to hand back; what it returns is the same after a [load] or a
    [save] as before. *)
Theorem lookups_leave_registry h layer_name (ia : InputArchive) m (oa : OutputArchive) l index :
  (load h layer_name ia m).2 = h ∧
  (save h layer_name oa l).2 = h ∧
  serialization_name (type_names_ (load h layer_name ia m).2) index =
    serialization_name (type_names_ h) index ∧
  serialization_name (type_names_ (save h layer_name oa l).2) index =
    serialization_name (type_names_ h) index.
Proof.
  assert (Hl : (load h layer_name ia m).2 = h).
  { rewrite load_cases. by destruct (loaders_ h !! layer_name). }
  assert (Hs : (save h layer_name oa l).2 = h).
  { rewrite save_cases. by destruct (savers_ h !! layer_name). }
  by rewrite Hl, Hs.
Qed.

End lookups.

Section glue.
Context {InputArchive OutputArchive : Type}.
Context `{!hierarchy, !cereal_output OutputArchive, !layer_types InputArchive OutputArchive}.
Implicit Types (h : serialization_helper InputArchive OutputArchive).
Implicit Types (m : memory) (T : type_index).

(** What the deleter of [load_layer_impl] does, by the flag it finds. *)
Lemma load_layer_deleter_valid T valid t m :
  read_flag valid m = true →
  events (load_layer_deleter T valid t m) = events m ++ [EvDestructor t; EvDelete t] ∧
  blocks (load_layer_deleter T valid t m) !! t = None.
Proof.
  intros Hv. unfold load_layer_deleter. rewrite Hv. simpl.
  rewrite <- app_assoc. split; [done | apply lookup_delete_eq].
Qed.

Lemma load_layer_deleter_invalid T valid t m :
  read_flag valid m = false →
  events (load_layer_deleter T valid t m) = events m ++ [EvDelete t] ∧
  blocks (load_layer_deleter T valid t m) !! t = None.
Proof.
  intros Hv. unfold load_layer_deleter. rewrite Hv. simpl.
  split; [done | apply lookup_delete_eq].
Qed.

(** C3. The loader that the glue registers for [T] is
    [load_layer_impl<InputArchive, T>]. In it, with [v] the flag [valid] and
    [p] the storage: when [T::load_and_construct] returns, the flag is set
    after the constructor has run, the handle points to the object, and
    letting go of the handle runs [~T()] and then frees the storage; when it
    throws, the exception leaves [load_layer_impl], the flag is still false,
    and the storage has been freed with no [~T()], whether or not the
    constructor had run. *)
Theorem load_layer_impl_destroys_only_constructed T (ia : InputArchive) m :
  let v := fresh (dom (flags m)) in
  let p := fresh (dom (blocks m)) in
  (∀ h s, (load (automatic_layer_generator_register h T s) s ia m).1 =
          Resolved (load_layer_impl T ia m)) ∧
  (∀ ms ia', load_and_construct T ia = (Completed ms, ia') →
     ∃ bn m', load_layer_impl T ia m = (Returned bn, ia', m') ∧
       get bn = p ∧
       blocks m' !! p = Some (Live {| dynamic_type := T; members := ms |}) ∧
       read_flag v m' = true ∧
       events m' = events m ++ [EvNew p T; EvConstructed p; EvValid v] ∧
       events (release bn m') = events m' ++ [EvDestructor p; EvDelete p] ∧
       blocks (release bn m') !! p = None) ∧
  (∀ e built ia', load_and_construct T ia = (Failed e built, ia') →
     ∃ m', load_layer_impl T ia m = (Thrown e, ia', m') ∧
       read_flag v m' = false ∧
       events m' = events m ++ [EvNew p T] ++
                   match built with Some _ => [EvConstructed p] | None => [] end ++
                   [EvDelete p] ∧
       blocks m' !! p = None).
Proof.
  intros v p. split; [|split].
  - intros h s. rewrite load_cases. unfold automatic_layer_generator_register. simpl.
    by rewrite map_assign_lookup.
  - intros ms ia' Hc. unfold load_layer_impl. simpl. rewrite Hc.
    eexists _, _. split; [reflexivity|]. simpl. fold v p.
    split; [done|]. split; [apply lookup_insert_eq|].
    split; [unfold read_flag; simpl; by rewrite lookup_insert_eq|].
    split; [by rewrite <- !app_assoc|].
    unfold release. simpl. apply load_layer_deleter_valid.
    unfold read_flag. simpl. by rewrite lookup_insert_eq.
  - intros e built ia' Hc. unfold load_layer_impl. simpl. rewrite Hc.
    eexists. split; [reflexivity|]. unfold release. cbn [get deleter]. fold v p.
    set (m2 := match built with Some ms => _ | None => _ end).
    assert (Hflag : read_flag v m2 = false).
    { unfold m2, read_flag. destruct built; simpl; by rewrite lookup_insert_eq. }
    destruct (load_layer_deleter_invalid T v p m2 Hflag) as [Hev Hbl].
    split.
    { unfold load_layer_deleter. rewrite Hflag. exact Hflag. }
    split; [|exact Hbl].
    rewrite Hev. unfold m2. destruct built; simpl; by rewrite <- !app_assoc.
Qed.

End glue.

Section registration.
Context {InputArchive OutputArchive : Type}.
Context `{!hierarchy, !cereal_output OutputArchive, !layer_types InputArchive OutputArchive}.
Implicit Types (h : serialization_helper InputArchive OutputArchive).
Implicit Types (T : type_index) (s name : string).

(** The three maps after one run of the glue. *)
Lemma glue_loaders h T s :
  loaders_ (automatic_layer_generator_register h T s) =
  <[s := Some (load_layer_impl T)]> (loaders_ h).
Proof. unfold automatic_layer_generator_register. simpl. apply map_assign_insert. Qed.

Lemma glue_savers h T s :
  savers_ (automatic_layer_generator_register h T s) =
  <[s := Some (λ names ar l, save_layer_impl T names ar (dynamic_cast T l))]> (savers_ h).
Proof. unfold automatic_layer_generator_register. simpl. apply map_assign_insert. Qed.

Lemma glue_type_names h T s :
  type_names_ (automatic_layer_generator_register h T s) = <[T := s]> (type_names_ h).
Proof. unfold automatic_layer_generator_register. simpl. apply map_assign_insert. Qed.

Lemma registered_snoc runs T s :
  registered (runs ++ [(T, s)]) = automatic_layer_generator_register (registered runs) T s.
Proof. unfold registered. by rewrite foldl_app. Qed.

(** Loaders and savers are registered together, whatever the runs. *)
Lemma registered_loader_saver runs name :
  is_Some (loaders_ (registered runs) !! name) → is_Some (savers_ (registered runs) !! name).
Proof.
  induction runs as [|[T s] runs IH] using rev_ind.
  - unfold registered. simpl. rewrite lookup_empty. by intros [? ?].
  - rewrite registered_snoc, glue_loaders, glue_savers.
    destruct (decide (s = name)) as [->|Hne].
    + rewrite !lookup_insert_eq. eauto.
    + rewrite !lookup_insert_ne by done. exact IH.
Qed.

(** With one name per type, the name of a loader is the entry of a type that
    was registered under it. *)
Lemma registered_type_name runs name :
  one_name_per_type runs →
  is_Some (loaders_ (registered runs) !! name) →
  ∃ T, (T, name) ∈ runs ∧ type_names_ (registered runs) !! T = Some name.
Proof.
  induction runs as [|[T s] runs IH] using rev_ind; intros Hone.
  - unfold registered. simpl. rewrite lookup_empty. by intros [? ?].
  - rewrite registered_snoc, glue_loaders, glue_type_names.
    destruct (decide (s = name)) as [->|Hne].
    + intros _. exists T. split; [set_solver | apply lookup_insert_eq].
    + rewrite lookup_insert_ne by done. intros Hl.
      destruct IH as (T' & Hin & HT'); [|done|].
      { intros U u u' Hu Hu'. apply (Hone U); set_solver. }
      exists T'. split; [set_solver|].
      destruct (decide (T = T')) as [<-|HTT].
      * exfalso. apply Hne. apply (Hone T); set_solver.
      * by rewrite lookup_insert_ne.
Qed.

(** C4, as amended. A run of the glue leaves an entry in each of the three
    maps. After any runs a name with a loader has a saver; it is also the
    name of a type in [type_names_] when no type was registered under two
    names ([type_names_] keeps the last name of a type only). *)
Theorem registered_names_covered :
  (∀ h T s,
     let h' := automatic_layer_generator_register h T s in
     is_Some (loaders_ h' !! s) ∧ is_Some (savers_ h' !! s) ∧ type_names_ h' !! T = Some s) ∧
  (∀ runs name,
     is_Some (loaders_ (registered runs) !! name) →
     is_Some (savers_ (registered runs) !! name)) ∧
  (∀ runs, one_name_per_type runs → names_covered (registered runs)).
Proof.
  split; [|split].
  - intros h T s h'. unfold h'.
    rewrite glue_loaders, glue_savers, glue_type_names, !lookup_insert_eq. eauto.
  - apply registered_loader_saver.
  - intros runs Hone name Hl. split.
    + by apply registered_loader_saver.
    + destruct (registered_type_name runs name Hone Hl) as (T & _ & HT). eauto.
Qed.

(** C5. Registering under a name that has an entry replaces the entry: after
    two registrations the name resolves to the second loader and the second
    saver, no entry is added, and [load] and [save] call the second pair. *)
Theorem last_registration_wins h name (f1 f2 : loader InputArchive) (g1 g2 : saver OutputArchive)
    T1 T2 :
  loaders_ (register_loader (register_loader h name f1) name f2) !! name = Some (Some f2) ∧
  savers_ (register_saver (register_saver h T1 name g1) T2 name g2) !! name =
    Some (Some (λ names ar l, g2 names ar (dynamic_cast T2 l))) ∧
  let h1 := automatic_layer_generator_register h T1 name in
  let h2 := automatic_layer_generator_register h1 T2 name in
  loaders_ h2 !! name = Some (Some (load_layer_impl T2)) ∧
  savers_ h2 !! name =
    Some (Some (λ names ar l, save_layer_impl T2 names ar (dynamic_cast T2 l))) ∧
  dom (loaders_ h2) = dom (loaders_ h1) ∧
  dom (savers_ h2) = dom (savers_ h1) ∧
  (∀ ar m, (load h2 name ar m).1 = Resolved (load_layer_impl T2 ar m)) ∧
  (∀ oa l, (save h2 name oa l).1 =
           Resolved (save_layer_impl T2 (type_names_ h2) oa (dynamic_cast T2 l))).
Proof.
  split; [|split].
  - simpl. by rewrite map_assign_lookup.
  - simpl. by rewrite map_assign_lookup.
  - intros h1 h2. unfold h2, h1.
    repeat split.
    + by rewrite glue_loaders, lookup_insert_eq.
    + by rewrite glue_savers, lookup_insert_eq.
    + by rewrite !glue_loaders, !dom_insert_L, (assoc_L (∪)), (idemp_L (∪)).
    + by rewrite !glue_savers, !dom_insert_L, (assoc_L (∪)), (idemp_L (∪)).
    + intros ar m. by rewrite load_cases, glue_loaders, lookup_insert_eq.
    + intros oa l. by rewrite save_cases, glue_savers, lookup_insert_eq.
Qed.

(** A saver that the glue registered for [T], called through [save] with a
    layer that is not a [T]: the cast gives null, and [save_layer_impl]
    dereferences it. *)
Lemma save_glue_wrong_type h T s oa l :
  savers_ h !! s = Some (Some (λ names ar l, save_layer_impl T names ar (dynamic_cast T l))) →
  dynamic_cast T l = None →
  (save h s oa l).1 = Resolved Undefined.
Proof. intros Hs Hc. rewrite save_cases, Hs. simpl. by rewrite Hc. Qed.

End registration.

Section free_functions.

Lemma write_members_json ms (oa : JSONOutputArchive) :
  write_members ms oa =
  {| written := written oa ++ ((λ '(n, v), (n, json_of_value v)) <$> ms);
     enclosing := enclosing oa |}.
Proof.
  revert oa. induction ms as [|[n v] ms IH]; intros oa.
  - destruct oa. simpl. by rewrite app_nil_r.
  - change (write_members ((n, v) :: ms) oa) with (write_members ms (nvp n v oa)).
    rewrite IH. simpl. by rewrite <- app_assoc.
Qed.

Lemma write_members_binary ms (oa : BinaryOutputArchive) :
  write_members ms oa = {| stream := stream oa ++ (snd <$> ms) |}.
Proof.
  revert oa. induction ms as [|[n v] ms IH]; intros oa.
  - destruct oa. simpl. by rewrite app_nil_r.
  - change (write_members ((n, v) :: ms) oa) with (write_members ms (nvp n v oa)).
    rewrite IH. simpl. by rewrite <- app_assoc.
Qed.

(** C8. For a type [T] registered under the name [n], [serialize_prolog]
    hands the archive one name-value pair, named [type], whose value is [n],
    the result of [serialization_name] for [typeid(T)]. Whatever the object
    writes after the call comes after it: in a JSON archive the open node
    gains the member [type] and then the object's members; a binary archive,
    which drops names, gains the string [n] and then their values. *)
Theorem serialize_prolog_type_field (names : gmap type_index string) (T : type_index) (n : string) :
  names !! T = Some n →
  serialization_name names T = Resolved (Returned n) ∧
  (∀ (OutputArchive : Type) `{!cereal_output OutputArchive} (oa : OutputArchive),
     serialize_prolog names oa T = Returned (nvp "type" (VString n) oa) ∧
     ∀ own : OutputArchive → outcome OutputArchive,
       (serialize_prolog names oa T ≫= own) = own (nvp "type" (VString n) oa)) ∧
  (∀ (oa : JSONOutputArchive) ms,
     (oa' ← serialize_prolog names oa T; mret (write_members ms oa')) =
     Returned {| written := written oa ++ ("type", JString n) ::
                              ((λ '(k, v), (k, json_of_value v)) <$> ms);
                 enclosing := enclosing oa |}) ∧
  (∀ (oa : BinaryOutputArchive) ms,
     (oa' ← serialize_prolog names oa T; mret (write_members ms oa')) =
     Returned {| stream := stream oa ++ VString n :: (snd <$> ms) |}).
Proof.
  intros Hn.
  assert (Hs : serialization_name names T = Resolved (Returned n)).
  { by rewrite serialization_name_cases, Hn. }
  split; [done|].
  assert (Hp : ∀ (OutputArchive : Type) `{!cereal_output OutputArchive} (oa : OutputArchive),
             serialize_prolog names oa T = Returned (nvp "type" (VString n) oa)).
  { intros OA ? oa. unfold serialize_prolog. by rewrite Hs. }
  repeat split.
  - apply Hp.
  - intros own. by rewrite Hp.
  - intros oa ms. rewrite Hp. simpl. unfold mret, outcome_ret.
    rewrite write_members_json. simpl. by rewrite <- app_assoc.
  - intros oa ms. rewrite Hp. simpl. unfold mret, outcome_ret.
    rewrite write_members_binary. simpl. by rewrite <- app_assoc.
Qed.

(** C9. For [cereal::BinaryInputArchive], as for any archive type that only
    the templates fit, both hooks return with the archive as it was. For
    [cereal::JSONInputArchive] they are [startNode] and [finishNode]: the
    first enters the node the archive is at, the second leaves the innermost
    node and steps past it, so that the two in a row are back at the level
    they started from. Both hooks exist for every archive type. *)
Theorem loading_layer_hooks :
  (∀ ar : BinaryInputArchive,
     start_loading_layer ar = Returned ar ∧ finish_loading_layer ar = Returned ar) ∧
  (∀ (T : Type) (ar : T),
     @start_loading_layer T (loading_layer_template T) ar = Returned ar ∧
     @finish_loading_layer T (loading_layer_template T) ar = Returned ar) ∧
  (∀ ia : JSONInputArchive,
     start_loading_layer ia = startNode ia ∧ finish_loading_layer ia = finishNode ia) ∧
  (∀ ia ia' : JSONInputArchive,
     start_loading_layer ia = Returned ia' →
     ∃ n ms it rest,
       iterators ia = ((n, JObject ms) :: it) :: rest ∧
       iterators ia' = ms :: iterators ia ∧
       finish_loading_layer ia' = Returned {| iterators := it :: rest |}).
Proof.
  repeat split.
  intros [its] ia'. simpl. unfold startNode. simpl.
  destruct its as [|[|[n [s|z|ms]] it] rest]; try discriminate.
  intros [= <-]. by exists n, ms, it, rest.
Qed.

End free_functions.

(** ** The registry of [Conv] and [Dense] *)

Section sample_facts.
#[local] Existing Instance sample_hierarchy.
#[local] Existing Instance sample_layers.

(** The scenario of the spec: saving a [Conv] under its name writes one node
    with the type tag first. *)
Example save_conv :
  (save sample_helper "conv" empty_json_output (Some a_conv)).1 =
  Resolved (Returned {|
    written := [("conv", JObject [("type", JString "conv"); ("kernel", JNumber 3);
                                    ("stride", JNumber 1)])];
    enclosing := [] |}).
Proof. vm_compute. reflexivity. Qed.

(** C1. [save] of a [Dense] under the name of [Conv]: the closure registered
    for [Conv] is found and called, [dynamic_cast<const Conv*>] gives null,
    and [save_layer_impl] applies [*] to it. The call does not return with the
    archive as it was; its behaviour is undefined. *)
Theorem save_dense_as_conv_undefined :
  dynamic_cast Conv (Some a_dense) = None ∧
  (save sample_helper "conv" empty_json_output (Some a_dense)).1 = Resolved Undefined ∧
  (save sample_helper "conv" empty_json_output (Some a_dense)).1 ≠
    Resolved (Returned empty_json_output).
Proof.
  assert (Hu : (save sample_helper "conv" empty_json_output (Some a_dense)).1 =
               Resolved Undefined).
  { apply (save_glue_wrong_type sample_helper Conv); reflexivity. }
  split; [reflexivity|]. split; [exact Hu|]. rewrite Hu. discriminate.
Qed.

(** [load] on the sample registry: no generator for [pool], and the loader of
    [Conv] under [conv]. *)
Lemma load_raises_iff_absent_witness :
  (loaders_ sample_helper !! "pool" = None ∧
   (load sample_helper "pool" conv_node empty_memory).1 =
     LookupError (generator_not_found "pool")) ∧
  (loaders_ sample_helper !! "conv" = Some (Some (load_layer_impl Conv)) ∧
   (load sample_helper "conv" conv_node empty_memory).1 =
     Resolved (load_layer_impl Conv conv_node empty_memory)).
Proof.
  destruct (load_raises_iff_absent sample_helper "pool" conv_node empty_memory)
    as (_ & Habsent & _).
  destruct (load_raises_iff_absent sample_helper "conv" conv_node empty_memory)
    as (_ & _ & Hpresent & _).
  split; split.
  - reflexivity.
  - apply Habsent. reflexivity.
  - reflexivity.
  - apply (Hpresent (Some (load_layer_impl Conv))). reflexivity.
Defined.

(** [save] on the sample registry, likewise. *)
Lemma save_raises_iff_absent_witness :
  (savers_ sample_helper !! "pool" = None ∧
   (save sample_helper "pool" empty_json_output (Some a_conv)).1 =
     LookupError (generator_not_found "pool")) ∧
  (savers_ sample_helper !! "conv" =
     Some (Some (λ names ar l, save_layer_impl Conv names ar (dynamic_cast Conv l))) ∧
   (save sample_helper "conv" empty_json_output (Some a_conv)).1 =
     Resolved (save_layer_impl Conv (type_names_ sample_helper) empty_json_output
                 (dynamic_cast Conv (Some a_conv)))).
Proof.
  destruct (save_raises_iff_absent sample_helper "pool" empty_json_output (Some a_conv))
    as (_ & Habsent & _).
  destruct (save_raises_iff_absent sample_helper "conv" empty_json_output (Some a_conv))
    as (_ & _ & Hpresent & _).
  split; split.
  - reflexivity.
  - apply Habsent. reflexivity.
  - reflexivity.
  - apply (Hpresent (Some (λ names ar l, save_layer_impl Conv names ar (dynamic_cast Conv l)))).
    reflexivity.
Defined.

(** [serialization_name] on the sample registry: a type that was never
    registered, and [Dense]. *)
Lemma serialization_name_raises_iff_absent_witness :
  (type_names_ sample_helper !! 3%positive = None ∧
   serialization_name (type_names_ sample_helper) 3 =
     LookupError (nn_error "Typename is not registered")) ∧
  (type_names_ sample_helper !! Dense = Some "dense" ∧
   serialization_name (type_names_ sample_helper) Dense = Resolved (Returned "dense")).
Proof.
  destruct (serialization_name_raises_iff_absent
              (InputArchive := JSONInputArchive) (OutputArchive := JSONOutputArchive)
              (type_names_ sample_helper) 3) as (_ & Habsent & _).
  destruct (serialization_name_raises_iff_absent
              (InputArchive := JSONInputArchive) (OutputArchive := JSONOutputArchive)
              (type_names_ sample_helper) Dense) as (_ & _ & Hpresent & _).
  split; split.
  - reflexivity.
  - apply Habsent. reflexivity.
  - reflexivity.
  - apply Hpresent. reflexivity.
Defined.

End sample_facts.

Section sample_glue.
#[local] Existing Instance sample_hierarchy.
#[local] Existing Instance sample_layers.

(** [load_layer_impl<JSONInputArchive, Conv>] on a complete node and on a node
    that lacks [stride], from an empty free store. *)
Lemma load_layer_impl_destroys_only_constructed_witness :
  (load_and_construct Conv conv_node =
     (Completed [("kernel", VNumber 3); ("stride", VNumber 1)], conv_node) ∧
   ∃ bn m', load_layer_impl Conv conv_node empty_memory = (Returned bn, conv_node, m') ∧
     get bn = 1%positive ∧
     blocks m' !! 1%positive = Some (Live a_conv) ∧
     read_flag 1 m' = true ∧
     events m' = [EvNew 1 Conv; EvConstructed 1; EvValid 1] ∧
     events (release bn m') = events m' ++ [EvDestructor 1; EvDelete 1] ∧
     blocks (release bn m') !! 1%positive = None) ∧
  (load_and_construct Conv broken_conv_node =
     (Failed (foreign "cereal: JSON parsing failed - provided NVP not found") None,
      broken_conv_node) ∧
   ∃ m', load_layer_impl Conv broken_conv_node empty_memory =
           (Thrown (foreign "cereal: JSON parsing failed - provided NVP not found"),
            broken_conv_node, m') ∧
     read_flag 1 m' = false ∧
     events m' = [EvNew 1 Conv; EvDelete 1] ∧
     blocks m' !! 1%positive = None).
Proof.
  split; (split; [reflexivity|]).
  - exact (proj1 (proj2 (load_layer_impl_destroys_only_constructed Conv conv_node
                            empty_memory)) _ _ eq_refl).
  - exact (proj2 (proj2 (load_layer_impl_destroys_only_constructed Conv broken_conv_node
                            empty_memory)) _ _ _ eq_refl).
Defined.

(** The claim C4 as stated fails: [Conv] registered as [a] and then as [b]
    leaves a loader and a saver under [a], and no type whose name is [a]. *)
Lemma renamed_type_not_covered :
  ¬ names_covered (registered [(Conv, "a"); (Conv, "b")]).
Proof.
  intros Hc. destruct (Hc "a") as [_ [T HT]].
  - eexists. reflexivity.
  - change (type_names_ (registered [(Conv, "a"); (Conv, "b")]))
      with (type_names_ (automatic_layer_generator_register
                           (automatic_layer_generator_register new_helper Conv "a")
                           Conv "b")) in HT.
    rewrite !glue_type_names in HT. simpl in HT.
    destruct (decide (T = Conv)) as [->|Hne].
    + rewrite lookup_insert_eq in HT. discriminate.
    + rewrite !lookup_insert_ne, lookup_empty in HT by done. discriminate.
Qed.

(** The sample registry, where [Conv] and [Dense] have one name each. *)
Lemma registered_names_covered_witness :
  one_name_per_type [(Conv, "conv"); (Dense, "dense")] ∧
  names_covered (registered [(Conv, "conv"); (Dense, "dense")]).
Proof.
  assert (Hone : one_name_per_type [(Conv, "conv"); (Dense, "dense")]).
  { intros T s s' Hs Hs'.
    rewrite !elem_of_cons, elem_of_nil in Hs, Hs'.
    destruct Hs as [?|[?|[]]], Hs' as [?|[?|[]]]; by simplify_eq. }
  split; [exact Hone|].
  exact (proj2 (proj2 registered_names_covered) _ Hone).
Defined.

(** The prolog of a [Dense] on an empty JSON archive. *)
Lemma serialize_prolog_type_field_witness :
  type_names_ sample_helper !! Dense = Some "dense" ∧
  serialize_prolog (type_names_ sample_helper) empty_json_output Dense =
    Returned {| written := [("type", JString "dense")]; enclosing := [] |}.
Proof.
  split; [reflexivity|].
  exact (proj1 (proj1 (proj2 (serialize_prolog_type_field
                                (type_names_ sample_helper) Dense "dense" eq_refl))
                  JSONOutputArchive _ empty_json_output)).
Defined.

(** Entering and leaving the node of the layer in [conv_document]. *)
Lemma loading_layer_hooks_witness :
  let ia' := {| iterators :=
    [("type", JString "conv"); ("kernel", JNumber 3); ("stride", JNumber 1)]
      :: iterators conv_document |} in
  start_loading_layer conv_document = Returned ia' ∧
  ∃ n ms it rest,
    iterators conv_document = ((n, JObject ms) :: it) :: rest ∧
    iterators ia' = ms :: iterators conv_document ∧
    finish_loading_layer ia' = Returned {| iterators := it :: rest |}.
Proof.
  intros ia'. split; [reflexivity|].
  exact (proj2 (proj2 (proj2 loading_layer_hooks)) conv_document ia' eq_refl).
Defined.

End sample_glue.

(** * Further properties of the registry *)

Section dispatch.
Context {InputArchive OutputArchive : Type}.
Context `{!hierarchy, !cereal_output OutputArchive, !layer_types InputArchive OutputArchive}.
Implicit Types (h : serialization_helper InputArchive OutputArchive).
Implicit Types (T : type_index) (s name : string) (o : object).


Lemma dynamic_cast_unrelated T l :
  l = None ∨ (∃ o, l = Some o ∧ dynamic_type o ≠ T ∧ derived_from (dynamic_type o) T = false) →
  dynamic_cast T l = None.
Proof.
  intros [->|(o & -> & Hne & Hd)]; [done|]. unfold dynamic_cast.
  by rewrite bool_decide_eq_false_2, Hd.
Qed.

(** X1. A run of the glue for [T] under [s] leaves every other name and every
    other type as they were: their entries in the three maps, what [load]
    does for the other name and what [serialization_name] returns for the
    other type. *)
Theorem registration_keeps_other_entries h T s s' T' :
  s ≠ s' → T ≠ T' →
  let h' := automatic_layer_generator_register h T s in
  loaders_ h' !! s' = loaders_ h !! s' ∧
  savers_ h' !! s' = savers_ h !! s' ∧
  type_names_ h' !! T' = type_names_ h !! T' ∧
  (∀ ar m, (load h' s' ar m).1 = (load h s' ar m).1) ∧
  serialization_name (type_names_ h') T' = serialization_name (type_names_ h) T'.
Proof.
  intros Hs HT h'. unfold h'.
  assert (Hl : loaders_ (automatic_layer_generator_register h T s) !! s' = loaders_ h !! s').
  { by rewrite glue_loaders, lookup_insert_ne. }
  assert (Hn : type_names_ (automatic_layer_generator_register h T s) !! T' =
               type_names_ h !! T').
  { by rewrite glue_type_names, lookup_insert_ne. }
  repeat split.
  - exact Hl.
  - by rewrite glue_savers, lookup_insert_ne.
  - exact Hn.
  - intros ar m. rewrite !load_cases, Hl. by destruct (loaders_ h !! s').
  - by rewrite !serialization_name_cases, Hn.
Qed.





(** X5. [save] under the name the glue registered for [T], with a null
    pointer or with a layer of a class that is neither [T] nor derived from
    it: the cast gives null and [save_layer_impl] dereferences it, whatever
    else the registry holds. *)
Theorem save_null_or_unrelated_undefined h T s (oa : OutputArchive) l :
  l = None ∨ (∃ o, l = Some o ∧ dynamic_type o ≠ T ∧ derived_from (dynamic_type o) T = false) →
  (save (automatic_layer_generator_register h T s) s oa l).1 = Resolved Undefined.
Proof.
  intros Hl. rewrite save_cases, glue_savers, lookup_insert_eq. cbn [fst call_saver].
  by rewrite (dynamic_cast_unrelated _ _ Hl).
Qed.

(** X6. Two types registered under one name: [serialization_name] still gives
    the name for the first type, but the name now holds the saver of the
    second, so saving a layer of the first type under its own name
    dereferences null. *)
Theorem name_collision_breaks_first_type h T1 T2 s (oa : OutputArchive) o :
  T1 ≠ T2 → derived_from T1 T2 = false → dynamic_type o = T1 →
  let h' := automatic_layer_generator_register (automatic_layer_generator_register h T1 s) T2 s in
  serialization_name (type_names_ h') T1 = Resolved (Returned s) ∧
  (save h' s oa (Some o)).1 = Resolved Undefined.
Proof.
  intros HT Hd Ho h'. unfold h'. split.
  - rewrite serialization_name_cases, glue_type_names, lookup_insert_ne by done.
    by rewrite glue_type_names, lookup_insert_eq.
  - rewrite save_cases, glue_savers, lookup_insert_eq. cbn [fst call_saver].
    rewrite dynamic_cast_unrelated; [done|].
    right. exists o. rewrite Ho. by repeat split.
Qed.

End dispatch.

Section storage.
Context {InputArchive OutputArchive : Type}.
Context `{!layer_types InputArchive OutputArchive}.



End storage.

Section sequences.
Context {InputArchive OutputArchive : Type}.
Context `{!hierarchy, !cereal_output OutputArchive, !layer_types InputArchive OutputArchive}.
Implicit Types (h : serialization_helper InputArchive OutputArchive).
Implicit Types (T : type_index) (s : string) (runs before after : list (type_index * string)).

Lemma registered_from_new runs : registered runs = registered_from new_helper runs.
Proof. reflexivity. Qed.

Lemma registered_from_snoc h runs T s :
  registered_from h (runs ++ [(T, s)]) =
  automatic_layer_generator_register (registered_from h runs) T s.
Proof. unfold registered_from. by rewrite foldl_app. Qed.

(** Names and types that no run mentions keep the entries of [h]. *)
Lemma registered_from_other_name h runs s :
  s ∉ runs.*2 →
  loaders_ (registered_from h runs) !! s = loaders_ h !! s ∧
  savers_ (registered_from h runs) !! s = savers_ h !! s.
Proof.
  induction runs as [|[T' s'] runs IH] using rev_ind; [done|].
  rewrite fmap_app, not_elem_of_app. cbn. rewrite not_elem_of_cons.
  intros (Hruns & Hne & _). destruct (IH Hruns) as [IHl IHs].
  rewrite registered_from_snoc, glue_loaders, glue_savers.
  by rewrite !lookup_insert_ne.
Qed.

Lemma registered_from_other_type h runs T :
  T ∉ runs.*1 → type_names_ (registered_from h runs) !! T = type_names_ h !! T.
Proof.
  induction runs as [|[T' s'] runs IH] using rev_ind; [done|].
  rewrite fmap_app, not_elem_of_app. cbn. rewrite not_elem_of_cons.
  intros (Hruns & Hne & _).
  rewrite registered_from_snoc, glue_type_names, lookup_insert_ne by done. by apply IH.
Qed.

(** The last run for a name, and the last run for a type. *)
Lemma registered_from_last_name h before T s after :
  s ∉ after.*2 →
  loaders_ (registered_from h (before ++ (T, s) :: after)) !! s =
    Some (Some (load_layer_impl T)) ∧
  savers_ (registered_from h (before ++ (T, s) :: after)) !! s =
    Some (Some (λ names ar l, save_layer_impl T names ar (dynamic_cast T l))).
Proof.
  intros Hs. unfold registered_from. rewrite foldl_app. cbn [foldl].
  fold (registered_from h before).
  fold (registered_from (automatic_layer_generator_register (registered_from h before) T s) after).
  destruct (registered_from_other_name
              (automatic_layer_generator_register (registered_from h before) T s) after s Hs)
    as [-> ->].
  by rewrite glue_loaders, glue_savers, !lookup_insert_eq.
Qed.

Lemma registered_from_last_type h before T s after :
  T ∉ after.*1 →
  type_names_ (registered_from h (before ++ (T, s) :: after)) !! T = Some s.
Proof.
  intros HT. unfold registered_from. rewrite foldl_app. cbn [foldl].
  fold (registered_from h before).
  fold (registered_from (automatic_layer_generator_register (registered_from h before) T s) after).
  rewrite registered_from_other_type by done.
  by rewrite glue_type_names, lookup_insert_eq.
Qed.

(** X8. After any sequence of runs of the glue on an empty registry, a name
    holds the loader and the saver of the last type registered under it, a
    type has the last name it was registered under, and a name or a type that
    no run mentions has no entry. *)
Theorem registered_last_run_wins :
  (∀ before T s after,
     s ∉ after.*2 →
     loaders_ (registered (before ++ (T, s) :: after)) !! s = Some (Some (load_layer_impl T)) ∧
     savers_ (registered (before ++ (T, s) :: after)) !! s =
       Some (Some (λ names ar l, save_layer_impl T names ar (dynamic_cast T l)))) ∧
  (∀ before T s after,
     T ∉ after.*1 → type_names_ (registered (before ++ (T, s) :: after)) !! T = Some s) ∧
  (∀ runs s,
     s ∉ runs.*2 →
     loaders_ (registered runs) !! s = None ∧ savers_ (registered runs) !! s = None) ∧
  (∀ runs T, T ∉ runs.*1 → type_names_ (registered runs) !! T = None).
Proof.
  repeat split.
  - rewrite registered_from_new. by apply registered_from_last_name.
  - rewrite registered_from_new. by apply registered_from_last_name.
  - intros before T s after HT. rewrite registered_from_new.
    by apply registered_from_last_type.
  - rewrite registered_from_new.
    by destruct (registered_from_other_name new_helper runs s) as [-> _].
  - rewrite registered_from_new.
    by destruct (registered_from_other_name new_helper runs s) as [_ ->].
  - intros runs T HT. rewrite registered_from_new.
    by rewrite registered_from_other_type.
Qed.

End sequences.

Section order.
Context {InputArchive OutputArchive : Type}.
Context `{!hierarchy, !cereal_output OutputArchive, !layer_types InputArchive OutputArchive}.
Implicit Types (h : serialization_helper InputArchive OutputArchive).
Implicit Types (T : type_index) (s : string) (runs : list (type_index * string)).

Lemma helper_eq h h' :
  loaders_ h = loaders_ h' → savers_ h = savers_ h' → type_names_ h = type_names_ h' → h = h'.
Proof. destruct h, h'. simpl. by intros -> -> ->. Qed.

(** The three maps of [registered runs], as the maps of the runs read from
    the last to the first. *)
Lemma registered_maps runs :
  loaders_ (registered runs) =
    list_to_map (reverse ((λ r, (r.2, Some (load_layer_impl r.1))) <$> runs)) ∧
  savers_ (registered runs) =
    list_to_map (reverse ((λ r, (r.2, Some (λ names ar l,
       save_layer_impl r.1 names ar (dynamic_cast r.1 l)))) <$> runs)) ∧
  type_names_ (registered runs) = list_to_map (reverse runs).
Proof.
  induction runs as [|[T s] runs (IHl & IHs & IHn)] using rev_ind; [done|].
  rewrite registered_snoc, glue_loaders, glue_savers, glue_type_names.
  rewrite !fmap_app, !reverse_snoc. cbn [fmap list_fmap]. rewrite !reverse_snoc.
  rewrite !list_to_map_cons. cbn [fst snd]. by rewrite IHl, IHs, IHn.
Qed.

Lemma list_to_map_reverse_perm {K : Type} `{Countable K} {A : Type} (l l' : list (K * A)) :
  NoDup l.*1 → l ≡ₚ l' → (list_to_map (reverse l) : gmap K A) = list_to_map (reverse l').
Proof.
  intros Hnd Hp. apply list_to_map_proper.
  - by rewrite reverse_Permutation.
  - by rewrite !reverse_Permutation.
Qed.

(** X9. The order in which the static objects are constructed does not
    matter when the types are distinct and the names are distinct: any two
    orders of the same runs give the same registry. *)
Theorem registered_order_irrelevant runs runs' :
  NoDup runs.*1 → NoDup runs.*2 → runs ≡ₚ runs' → registered runs = registered runs'.
Proof.
  intros HT Hs Hp.
  destruct (registered_maps runs) as (Hl & Hsv & Hn).
  destruct (registered_maps runs') as (Hl' & Hsv' & Hn').
  apply helper_eq.
  - rewrite Hl, Hl'. apply list_to_map_reverse_perm; [|by rewrite Hp].
    by rewrite <- list_fmap_compose.
  - rewrite Hsv, Hsv'. apply list_to_map_reverse_perm; [|by rewrite Hp].
    by rewrite <- list_fmap_compose.
  - rewrite Hn, Hn'. by apply list_to_map_reverse_perm.
Qed.


End order.

Section string_facts.

Lemma string_length_append (a r : string) :
  String.length (a +:+ r) = (String.length a + String.length r)%nat.
Proof. induction a as [|c a IH]; simpl; [done|]. by rewrite IH. Qed.

Lemma string_append_inj_r (a b r : string) : a +:+ r = b +:+ r → a = b.
Proof.
  revert b. induction a as [|c a IH]; intros [|d b]; simpl; try done.
  - intros Heq. apply (f_equal String.length) in Heq.
    rewrite ?string_length_append in Heq. cbn in Heq.
    rewrite ?string_length_append in Heq. exfalso. lia.
  - intros Heq. apply (f_equal String.length) in Heq.
    rewrite ?string_length_append in Heq. cbn in Heq.
    rewrite ?string_length_append in Heq. exfalso. lia.
  - intros [= -> Hab]. f_equal. by apply IH.
Qed.

Lemma string_append_inj_l (s x y : string) : s +:+ x = s +:+ y → x = y.
Proof. induction s as [|c s IH]; simpl; [done|]. intros [= ?]. auto. Qed.

End string_facts.

Section macro_facts.
Context `{!hierarchy}.
Context `{!layer_types JSONInputArchive JSONOutputArchive}.
Context `{!layer_types BinaryInputArchive BinaryOutputArchive}.
Implicit Types (g : instances) (layer_name : string) (layer_type : string → type_index).

(** The names that the macro builds for two activations differ. *)
Lemma activation_name_inj layer_name (a b : string) :
  layer_name +:+ "<" +:+ a +:+ ">" = layer_name +:+ "<" +:+ b +:+ ">" → a = b.
Proof.
  intros Heq%string_append_inj_l. apply (string_append_inj_l "<") in Heq.
  by apply string_append_inj_r in Heq.
Qed.

Lemma with_activations_instances g layer_type layer_name :
  let runs := (λ a, (layer_type a, layer_name +:+ "<" +:+ a +:+ ">")) <$> activations in
  json_instance (CNN_REGISTER_LAYER_SERIALIZER_WITH_ACTIVATIONS g layer_type layer_name) =
    registered_from (json_instance g) runs ∧
  binary_instance (CNN_REGISTER_LAYER_SERIALIZER_WITH_ACTIVATIONS g layer_type layer_name) =
    registered_from (binary_instance g) runs.
Proof. split; reflexivity. Qed.

Lemma NoDup_activations : NoDup activations.
Proof. apply (bool_decide_unpack _). by vm_compute. Qed.

(** X11. [CNN_REGISTER_LAYER_SERIALIZER_WITH_ACTIVATIONS(layer_type, layer_name)]
    builds eight different names, so none of its registrations replaces
    another: for each activation [a] it names, and in both registries, the
    name [layer_name<a>] holds the loader and the saver of [layer_type<a>],
    and that type has that name, provided the eight instantiations of the
    template are different types. *)
Theorem with_activations_registers_each g layer_type layer_name (a : string) :
  a ∈ activations →
  (∀ b, b ∈ activations → layer_type b = layer_type a → b = a) →
  let g' := CNN_REGISTER_LAYER_SERIALIZER_WITH_ACTIVATIONS g layer_type layer_name in
  let n := layer_name +:+ "<" +:+ a +:+ ">" in
  (loaders_ (json_instance g') !! n = Some (Some (load_layer_impl (layer_type a))) ∧
   savers_ (json_instance g') !! n =
     Some (Some (λ names ar l, save_layer_impl (layer_type a) names ar
                                  (dynamic_cast (layer_type a) l))) ∧
   serialization_name (type_names_ (json_instance g')) (layer_type a) =
     Resolved (Returned n)) ∧
  (loaders_ (binary_instance g') !! n = Some (Some (load_layer_impl (layer_type a))) ∧
   savers_ (binary_instance g') !! n =
     Some (Some (λ names ar l, save_layer_impl (layer_type a) names ar
                                  (dynamic_cast (layer_type a) l))) ∧
   serialization_name (type_names_ (binary_instance g')) (layer_type a) =
     Resolved (Returned n)).
Proof.
  intros Ha Hinj g' n.
  destruct (with_activations_instances g layer_type layer_name) as [Hj Hb].
  unfold g'. rewrite Hj, Hb. clear Hj Hb g'.
  pose proof NoDup_activations as Hnd.
  destruct (list_elem_of_split _ _ Ha) as (before & after & Hsplit).
  rewrite Hsplit in Hnd. apply NoDup_app in Hnd as (_ & _ & [Hafter _]%NoDup_cons).
  rewrite Hsplit, fmap_app. cbn [fmap list_fmap]. fold n.
  set (f := λ a0 : string, (layer_type a0, layer_name +:+ "<" +:+ a0 +:+ ">")).
  assert (Hname : n ∉ (f <$> after).*2).
  { rewrite <- list_fmap_compose. intros (b & Hb & Hin)%list_elem_of_fmap.
    apply activation_name_inj in Hb as ->. contradiction. }
  assert (Htype : layer_type a ∉ (f <$> after).*1).
  { rewrite <- list_fmap_compose. intros (b & Hb & Hin)%list_elem_of_fmap.
    cbn in Hb. apply Hafter. rewrite <- (Hinj b); [done| |done].
    rewrite Hsplit, elem_of_app, elem_of_cons. auto. }
  split.
  - destruct (registered_from_last_name (json_instance g) (f <$> before) (layer_type a) n
                _ Hname) as [Hl Hs].
    pose proof (registered_from_last_type (json_instance g) (f <$> before) (layer_type a) n
                  _ Htype) as Hn.
    by rewrite serialization_name_cases, Hl, Hs, Hn.
  - destruct (registered_from_last_name (binary_instance g) (f <$> before) (layer_type a) n
                _ Hname) as [Hl Hs].
    pose proof (registered_from_last_type (binary_instance g) (f <$> before) (layer_type a) n
                  _ Htype) as Hn.
    by rewrite serialization_name_cases, Hl, Hs, Hn.
Qed.

(** X12. [CNN_REGISTER_LAYER_SERIALIZER(layer_type, layer_name)] registers
    the type under the name in the registry of the JSON archives and in the
    registry of the binary archives; in each, [load] under the name runs the
    loader of the type for that pair of archives, and every other name keeps
    its loader and its saver. *)
Theorem register_layer_serializer_both_archives g (layer_type : type_index) layer_name :
  let g' := CNN_REGISTER_LAYER_SERIALIZER g layer_type layer_name in
  (∀ (ia : JSONInputArchive) m,
     (load (json_instance g') layer_name ia m).1 = Resolved (load_layer_impl layer_type ia m)) ∧
  (∀ (ia : BinaryInputArchive) m,
     (load (binary_instance g') layer_name ia m).1 =
     Resolved (load_layer_impl layer_type ia m)) ∧
  serialization_name (type_names_ (json_instance g')) layer_type =
    Resolved (Returned layer_name) ∧
  serialization_name (type_names_ (binary_instance g')) layer_type =
    Resolved (Returned layer_name) ∧
  (∀ s, layer_name ≠ s →
     loaders_ (json_instance g') !! s = loaders_ (json_instance g) !! s ∧
     savers_ (json_instance g') !! s = savers_ (json_instance g) !! s ∧
     loaders_ (binary_instance g') !! s = loaders_ (binary_instance g) !! s ∧
     savers_ (binary_instance g') !! s = savers_ (binary_instance g) !! s).
Proof.
  intros g'. unfold g', CNN_REGISTER_LAYER_SERIALIZER, CNN_REGISTER_LAYER_SERIALIZER_BODY.
  cbn [json_instance binary_instance]. repeat split.
  - intros ia m. by rewrite load_cases, glue_loaders, lookup_insert_eq.
  - intros ia m. by rewrite load_cases, glue_loaders, lookup_insert_eq.
  - by rewrite serialization_name_cases, glue_type_names, lookup_insert_eq.
  - by rewrite serialization_name_cases, glue_type_names, lookup_insert_eq.
  - by rewrite glue_loaders, lookup_insert_ne.
  - by rewrite glue_savers, lookup_insert_ne.
  - by rewrite glue_loaders, lookup_insert_ne.
  - by rewrite glue_savers, lookup_insert_ne.
Qed.

End macro_facts.

Section messages.
Context {InputArchive OutputArchive : Type}.
Implicit Types (h : serialization_helper InputArchive OutputArchive).

(** X13. The error of a failed lookup names the layer: for a name with no
    loader and no saver, [load] and [save] throw the same [nn_error], whose
    message differs from the message for any other name, and from the
    message of [serialization_name], which is the same for every type. *)
Theorem lookup_error_names_the_layer h (a b : string) (ia : InputArchive) m
    (oa : OutputArchive) l (names : gmap type_index string) (T : type_index) :
  loaders_ h !! a = None → savers_ h !! a = None → names !! T = None →
  (load h a ia m).1 = LookupError (generator_not_found a) ∧
  (save h a oa l).1 = LookupError (generator_not_found a) ∧
  (generator_not_found a = generator_not_found b → a = b) ∧
  serialization_name names T = LookupError (nn_error "Typename is not registered") ∧
  generator_not_found a ≠ nn_error "Typename is not registered".
Proof.
  intros Hl Hs Hn. rewrite load_cases, save_cases, serialization_name_cases, Hl, Hs, Hn.
  repeat split.
  - unfold generator_not_found. intros [= Heq].
    apply string_append_inj_l in Heq. by apply string_append_inj_r in Heq.
  - unfold generator_not_found. by intros [= Heq].
Qed.

End messages.

(** ** The further properties on the registry of [Conv] and [Dense] *)

Section sample_dispatch.
#[local] Existing Instance sample_hierarchy.
#[local] Existing Instance sample_layers.

(** Registering [Dense] leaves the entries of [Conv]. *)
Lemma registration_keeps_other_entries_witness :
  "dense" ≠ "conv" ∧ Dense ≠ Conv ∧
  loaders_ sample_helper !! "conv" =
    loaders_ (automatic_layer_generator_register new_json_helper Conv "conv") !! "conv" ∧
  type_names_ sample_helper !! Conv =
    type_names_ (automatic_layer_generator_register new_json_helper Conv "conv") !! Conv.
Proof.
  assert (Hs : "dense" ≠ "conv") by discriminate.
  assert (HT : Dense ≠ Conv) by discriminate.
  destruct (registration_keeps_other_entries
              (automatic_layer_generator_register new_json_helper Conv "conv")
              Dense "dense" "conv" Conv Hs HT) as (Hl & _ & Hn & _).
  exact (conj Hs (conj HT (conj Hl Hn))).
Defined.




(** A null pointer saved under [dense]. *)
Lemma save_null_or_unrelated_undefined_witness :
  (save sample_helper "dense" empty_json_output None).1 = Resolved Undefined.
Proof.
  exact (save_null_or_unrelated_undefined
           (automatic_layer_generator_register new_json_helper Conv "conv") Dense "dense"
           empty_json_output None (or_introl eq_refl)).
Defined.

(** [Conv] and then [Dense] registered under the one name [layer]. *)
Lemma name_collision_breaks_first_type_witness :
  Conv ≠ Dense ∧
  serialization_name
    (type_names_ (automatic_layer_generator_register
                    (automatic_layer_generator_register new_json_helper Conv "layer")
                    Dense "layer")) Conv = Resolved (Returned "layer") ∧
  (save (automatic_layer_generator_register
           (automatic_layer_generator_register new_json_helper Conv "layer") Dense "layer")
        "layer" empty_json_output (Some a_conv)).1 = Resolved Undefined.
Proof.
  assert (HT : Conv ≠ Dense) by discriminate.
  split; [exact HT|].
  exact (name_collision_breaks_first_type new_json_helper Conv Dense "layer" empty_json_output
           a_conv HT eq_refl eq_refl).
Defined.

Lemma NoDup_sample_types : NoDup [Conv; Dense].
Proof. apply (bool_decide_unpack _). by vm_compute. Defined.

Lemma NoDup_sample_names : NoDup ["conv"; "dense"].
Proof. apply (bool_decide_unpack _). by vm_compute. Defined.

(** [Dense] registered before [Conv] gives the sample registry. *)
Lemma registered_order_irrelevant_witness :
  registered [(Conv, "conv"); (Dense, "dense")] =
  registered [(Dense, "dense"); (Conv, "conv")].
Proof.
  exact (registered_order_irrelevant [(Conv, "conv"); (Dense, "dense")]
           [(Dense, "dense"); (Conv, "conv")]
           NoDup_sample_types NoDup_sample_names (perm_swap _ _ _)).
Defined.


(** The last of three runs for the name and for the type. *)
Lemma registered_last_run_wins_witness :
  ("b" ∉ (snd <$> ([(Dense, "dense")] : list (type_index * string)))) ∧
  loaders_ (registered [(Conv, "b"); (Dense, "b"); (Dense, "dense")]) !! "b" =
    Some (Some (load_layer_impl Dense)).
Proof.
  assert (Hb : "b" ∉ (snd <$> ([(Dense, "dense")] : list (type_index * string)))).
  { intros [Heq|Hin]%elem_of_cons; [discriminate|]. by apply elem_of_nil in Hin. }
  split; [exact Hb|].
  exact (proj1 (proj1 registered_last_run_wins [(Conv, "b")] Dense "b" [(Dense, "dense")] Hb)).
Defined.

(** No generator for [pool] in the sample registry. *)
Lemma lookup_error_names_the_layer_witness :
  (load sample_helper "pool" conv_node empty_memory).1 =
    LookupError (generator_not_found "pool") ∧
  (save sample_helper "pool" empty_json_output (Some a_conv)).1 =
    LookupError (generator_not_found "pool").
Proof.
  destruct (lookup_error_names_the_layer sample_helper "pool" "conv" conv_node empty_memory
              empty_json_output (Some a_conv) (type_names_ sample_helper) 3%positive
              eq_refl eq_refl eq_refl) as (Hl & Hs & _).
  exact (conj Hl Hs).
Defined.

End sample_dispatch.

Section sample_macros.
#[local] Existing Instance sample_hierarchy.
#[local] Existing Instance sample_layers.
#[local] Existing Instance sample_binary_layers.

(** The macro for a template whose instantiations are told apart by the name
    of the activation. *)
Lemma with_activations_registers_each_witness :
  "relu" ∈ activations ∧
  loaders_ (json_instance
              (CNN_REGISTER_LAYER_SERIALIZER_WITH_ACTIVATIONS
                 {| json_instance := new_helper; binary_instance := new_helper |}
                 encode "fully_connected")) !! "fully_connected<relu>" =
    Some (Some (load_layer_impl (encode "relu"))).
Proof.
  assert (Hin : "relu" ∈ activations).
  { unfold activations. rewrite !elem_of_cons. auto 10. }
  split; [exact Hin|].
  refine (proj1 (proj1 (with_activations_registers_each
                          {| json_instance := new_helper; binary_instance := new_helper |}
                          encode "fully_connected" "relu" Hin _))).
  intros b _ Hb. by apply (inj encode).
Defined.

End sample_macros.
